(** * Adarnauth-ACL: acl/models.py

    A shallow embedding of the access-control core of [acl/models.py]
    (the ordered enumerations [AclLevel] and [AclRole], the decision value
    [AclResponse], the membership lookup, the per-list resolution
    [check_membership] and the profile aggregation [check_access]),
    followed by the properties of that code.

    Python is dynamically typed and every operation may raise.  The
    embedding therefore works in an error monad whose errors are the
    Python exceptions the modelled code can raise, resolves the names the
    resolver reads through an explicit namespace, and dispatches the
    builtins [int()], [bool()] and [<] through type classes that record
    which special methods a class defines. *)

From stdpp Require Import base option list gmap strings.
From Stdlib Require Import ZArith Lia.

Local Open Scope string_scope.
Local Open Scope list_scope.
Local Open Scope Z_scope.

(** ** Exceptions and results *)

Inductive exn : Type :=
| KeyError (key : string)            (* dict[key] on a missing key *)
| TypeError                          (* builtin applied to an unsupported object *)
| NameError (name : string)          (* unbound global name *)
| UnboundLocalError (name : string)  (* local read before assignment *)
| AttributeError (name : string)     (* missing attribute *)
| IndexError                         (* list index out of range *)
| DoesNotExist                       (* AccessListMembership.DoesNotExist *)
| MultipleObjectsReturned.           (* AccessListMembership.MultipleObjectsReturned *)

Inductive result (A : Type) : Type :=
| Ok (a : A)
| Raise (e : exn).

Arguments Ok {A} a.
Arguments Raise {A} e.

#[global] Instance result_ret : MRet result := @Ok.

#[global] Instance result_bind : MBind result :=
  λ A B f m, match m with Ok a => f a | Raise e => Raise e end.

(** [try: body except handles: handler] *)
Definition try_except {A} (body : result A) (handles : exn → bool)
    (handler : result A) : result A :=
  match body with
  | Ok a => Ok a
  | Raise e => if handles e then handler else Raise e
  end.

(** ** Builtins *)

(** [d[k]] on a dict with string keys. *)
Definition getitem {V} (d : gmap string V) (k : string) : result V :=
  match d !! k with
  | Some v => Ok v
  | None => Raise (KeyError k)
  end.

(** [bool(n)] for an integer. *)
Definition bool_of_int (n : Z) : bool := negb (n =? 0).

(** [int(x)] looks for [__int__] on the class of [x]; a class without it
    (and without [__index__] or [__trunc__], which no class of this module
    defines) makes [int(x)] raise [TypeError]. *)
Class PyInt (A : Type) := dunder_int : option (A → result Z).

Definition py_int {A} `{PyInt A} (x : A) : result Z :=
  match dunder_int with
  | Some f => f x
  | None => Raise TypeError
  end.

(** [bool(x)] calls [__bool__] ([__nonzero__] forwards to it). *)
Class PyBool (A : Type) := dunder_bool : A → result bool.

Definition py_bool {A} `{PyBool A} (x : A) : result bool := dunder_bool x.

(** [x < y] between two instances of one class calls [x.__lt__(y)]. *)
Class PyLt (A : Type) := dunder_lt : A → A → result bool.

(** ** Naming constants *)

Definition ADMIN := "Admin".
Definition MANAGER := "Manager".
Definition MEMBER := "Member".
Definition BLOCKED := "Blocked".
Definition NONE := "None".
Definition CHARACTER_LEVEL := "Character".
Definition CORP_LEVEL := "Corp".
Definition ALLIANCE_LEVEL := "Alliance".
Definition FACTION_LEVEL := "Faction".
Definition PUBLIC_LEVEL := "Public".

(** ** Helper classes for sorting responses *)

Module AclLevel.

Record t : Type := mk { level : string }.

Definition LEVEL_MAP : gmap string Z :=
  list_to_map
    [ (CHARACTER_LEVEL, 5);
      (CORP_LEVEL, 4);
      (ALLIANCE_LEVEL, 3);
      (FACTION_LEVEL, 2);
      (PUBLIC_LEVEL, 1);
      (NONE, 0) ].

(** [self.level = level]: the name is stored as it comes. *)
Definition __init__ (level : string) : result t := Ok (mk level).

Definition __int__ (self : t) : result Z := getitem LEVEL_MAP (level self).

#[global] Instance py_int_inst : PyInt t := Some __int__.

(** [other] is whatever object stands on the right of [==]; the body only
    asks it for [int(other)]. *)
Definition __eq__ {B} `{PyInt B} (self : t) (other : B) : result bool :=
  a ← py_int self; b ← py_int other; Ok (a =? b).

Definition __lt__ {B} `{PyInt B} (self : t) (other : B) : result bool :=
  a ← py_int self; b ← py_int other; Ok (a <? b).

Definition __bool__ (self : t) : result bool :=
  n ← __int__ self; Ok (bool_of_int n).

Definition __nonzero__ (self : t) : result bool := __bool__ self.

#[global] Instance py_bool_inst : PyBool t := __bool__.

#[global] Instance py_lt_inst : PyLt t := __lt__.

(** The comparisons that [total_ordering] adds to a class that defines
    [__lt__] and [__eq__]: [a > b] is [not a < b and a != b], [a <= b] is
    [a < b or a == b], [a >= b] is [not a < b]; [!=] is the negation of
    [__eq__]. *)
Definition __gt__ {B} `{PyInt B} (self : t) (other : B) : result bool :=
  op_result ← __lt__ self other;
  if (op_result : bool) then Ok false
  else e ← __eq__ self other; Ok (negb e).

Definition __le__ {B} `{PyInt B} (self : t) (other : B) : result bool :=
  op_result ← __lt__ self other;
  if (op_result : bool) then Ok true else __eq__ self other.

Definition __ge__ {B} `{PyInt B} (self : t) (other : B) : result bool :=
  op_result ← __lt__ self other; Ok (negb op_result).

End AclLevel.

Module AclRole.

Record t : Type := mk { role : string }.

Definition ROLE_MAP : gmap string Z :=
  list_to_map
    [ (BLOCKED, 4);
      (ADMIN, 3);
      (MANAGER, 2);
      (MEMBER, 1);
      (NONE, 0) ].

Definition __init__ (role : string) : result t := Ok (mk role).

Definition __int__ (self : t) : result Z := getitem ROLE_MAP (role self).

#[global] Instance py_int_inst : PyInt t := Some __int__.

(** [bool(self.__int__()) and self.__int__() != self.ROLE_MAP[BLOCKED]] *)
Definition __bool__ (self : t) : result bool :=
  a ← __int__ self;
  if bool_of_int a then
    b ← __int__ self; blocked ← getitem ROLE_MAP BLOCKED;
    Ok (negb (b =? blocked))
  else Ok false.

Definition __nonzero__ (self : t) : result bool := __bool__ self.

Definition __eq__ {B} `{PyInt B} (self : t) (other : B) : result bool :=
  a ← py_int self; b ← py_int other; Ok (a =? b).

Definition __lt__ {B} `{PyInt B} (self : t) (other : B) : result bool :=
  a ← py_int self; b ← py_int other; Ok (a <? b).

#[global] Instance py_bool_inst : PyBool t := __bool__.

#[global] Instance py_lt_inst : PyLt t := __lt__.

(** The comparisons that [total_ordering] adds to a class that defines
    [__lt__] and [__eq__]: [a > b] is [not a < b and a != b], [a <= b] is
    [a < b or a == b], [a >= b] is [not a < b]; [!=] is the negation of
    [__eq__]. *)
Definition __gt__ {B} `{PyInt B} (self : t) (other : B) : result bool :=
  op_result ← __lt__ self other;
  if (op_result : bool) then Ok false
  else e ← __eq__ self other; Ok (negb e).

Definition __le__ {B} `{PyInt B} (self : t) (other : B) : result bool :=
  op_result ← __lt__ self other;
  if (op_result : bool) then Ok true else __eq__ self other.

Definition __ge__ {B} `{PyInt B} (self : t) (other : B) : result bool :=
  op_result ← __lt__ self other; Ok (negb op_result).

End AclRole.

(** Define ACL Levels *)
Definition character_level := AclLevel.mk CHARACTER_LEVEL.
Definition corp_level := AclLevel.mk CORP_LEVEL.
Definition alliance_level := AclLevel.mk ALLIANCE_LEVEL.
Definition faction_level := AclLevel.mk FACTION_LEVEL.
Definition public_level := AclLevel.mk PUBLIC_LEVEL.
Definition none_level := AclLevel.mk NONE.

(** Define ACL Roles *)
Definition blocked_role := AclRole.mk BLOCKED.
Definition admin_role := AclRole.mk ADMIN.
Definition manager_role := AclRole.mk MANAGER.
Definition member_role := AclRole.mk MEMBER.
Definition none_role := AclRole.mk NONE.

Module AclResponse.

Record t : Type := mk { level : AclLevel.t; role : AclRole.t }.

Definition __init__ (level : AclLevel.t) (role : AclRole.t) : result t :=
  Ok (mk level role).

(** The class defines [__init__], [__bool__], [__nonzero__], [__str__],
    [__eq__] and [__lt__] (and, through [total_ordering], the comparisons
    derived from the last two), but no [__int__]. *)
#[global] Instance py_int_inst : PyInt t := None.

Definition __bool__ (self : t) : result bool := py_bool (role self).

Definition __nonzero__ (self : t) : result bool := __bool__ self.

(** [(self.level, self.role) == (other.level, other.role)]: two tuples
    are equal when their items are pairwise equal under [==].  The
    embedding has no object identity and converts every pair of items.
    CPython takes two items that are the same object as equal without
    calling [__eq__]: the outcome is the same whenever the name of that
    object is in its map, and differs only for one object of a name
    outside the map held by both responses, where the code answers and
    the embedding raises [KeyError]. *)
Definition __eq__ (self other : t) : result bool :=
  e ← AclLevel.__eq__ (level self) (level other);
  if (e : bool) then AclRole.__eq__ (role self) (role other) else Ok false.

(** [(self.level, self.role) < (other.level, other.role)]: the first pair
    of items that differ under [==] decides, with [<]; items are compared
    as in [__eq__] above, without object identity. *)
Definition tuple_lt (self other : t) : result bool :=
  e ← AclLevel.__eq__ (level self) (level other);
  if (e : bool) then
    e' ← AclRole.__eq__ (role self) (role other);
    if (e' : bool) then Ok false
    else AclRole.__lt__ (role self) (role other)
  else AclLevel.__lt__ (level self) (level other).

Definition __lt__ (self other : t) : result bool :=
  o ← py_int other;
  c ← (if bool_of_int o then s ← py_int self; Ok (negb (bool_of_int s))
       else Ok false);
  if (c : bool) then
    (* none always lower regardless of level *)
    Ok true
  else tuple_lt self other.

#[global] Instance py_bool_inst : PyBool t := __bool__.

#[global] Instance py_lt_inst : PyLt t := __lt__.

(** The comparisons added by [total_ordering], as for the two classes
    above. *)
Definition __gt__ (self other : t) : result bool :=
  op_result ← __lt__ self other;
  if (op_result : bool) then Ok false
  else e ← __eq__ self other; Ok (negb e).

Definition __le__ (self other : t) : result bool :=
  op_result ← __lt__ self other;
  if (op_result : bool) then Ok true else __eq__ self other.

Definition __ge__ (self other : t) : result bool :=
  op_result ← __lt__ self other; Ok (negb op_result).

End AclResponse.

(** Define default response *)
Definition empty_response := AclResponse.mk none_level none_role.

(** ** Objects, attributes and the membership table *)

(** The attribute values the resolver reads are ids: [None] or an integer. *)
Inductive value : Type :=
| VNone
| VInt (n : Z).

#[global] Instance value_eq_dec : EqDecision value.
Proof. solve_decision. Defined.

(** Truth value of an id in a condition. *)
Definition truthy (v : value) : bool :=
  match v with
  | VNone => false
  | VInt n => bool_of_int n
  end.

(** A subject passed to the resolver: an instance, with the attributes it
    carries and whether its class is the user model ([get_user_model()]). *)
Record object : Type := { is_user : bool; attrs : gmap string value }.

Definition hasattr (o : object) (name : string) : bool :=
  bool_decide (is_Some (attrs o !! name)).

Definition getattr (o : object) (name : string) : result value :=
  match attrs o !! name with
  | Some v => Ok v
  | None => Raise (AttributeError name)
  end.

(** [BaseEntity(id=v)] *)
Definition BaseEntity (v : value) : object :=
  {| is_user := false; attrs := {[ "id" := v ]} |}.

(** [isinstance(entity, User) or issubclass(entity, User)]: for an instance
    of another class the second operand is evaluated, and [issubclass]
    raises [TypeError] because its first argument is not a class. *)
Definition isinstance_or_issubclass_User (entity : object) : result bool :=
  if is_user entity then Ok true else Raise TypeError.

Module AccessListMembership.

(** A row of the intermediate table: the two foreign keys and the role
    name. *)
Record t : Type := mk { entity : Z; access_list : Z; role : string }.

(** [unique_together = (('entity', 'access_list'),)] *)
Definition unique_together (rows : list t) : Prop :=
  NoDup ((λ m, (entity m, access_list m)) <$> rows).

#[global] Instance unique_together_dec rows : Decision (unique_together rows).
Proof. unfold unique_together. apply _. Defined.

(** [QuerySet.get(entity__id=v)]: the single matching row. *)
Definition get (rows : list t) (entity__id : value) : result t :=
  match filter (λ m, VInt (entity m) = entity__id) rows with
  | [] => Raise DoesNotExist
  | [m] => Ok m
  | _ => Raise MultipleObjectsReturned
  end.

(** The role names a membership may store (first items of
    [ROLE_CHOICES]). *)
Definition ROLE_CHOICES : list string := [ADMIN; MANAGER; MEMBER; BLOCKED].

(** Every row stores one of the choices. *)
Definition valid_roles (rows : list t) : Prop :=
  Forall (λ m, role m ∈ ROLE_CHOICES) rows.

#[global] Instance valid_roles_dec rows : Decision (valid_roles rows).
Proof. unfold valid_roles. apply _. Defined.

End AccessListMembership.

(** ** The module namespace *)

(** The instances bound at module level, by name.  A name the resolver
    reads is looked up here when the function runs; a name that the
    module never binds raises [NameError]. *)
Inductive global : Type :=
| GLevel (l : AclLevel.t)
| GRole (r : AclRole.t)
| GResponse (r : AclResponse.t).

Definition module_globals : gmap string global :=
  list_to_map
    [ ("character_level", GLevel character_level);
      ("corp_level", GLevel corp_level);
      ("alliance_level", GLevel alliance_level);
      ("faction_level", GLevel faction_level);
      ("public_level", GLevel public_level);
      ("none_level", GLevel none_level);
      ("blocked_role", GRole blocked_role);
      ("admin_role", GRole admin_role);
      ("manager_role", GRole manager_role);
      ("member_role", GRole member_role);
      ("none_role", GRole none_role);
      ("empty_response", GResponse empty_response) ].

Definition load_global (name : string) : result global :=
  match module_globals !! name with
  | Some g => Ok g
  | None => Raise (NameError name)
  end.

(** The readers below hand the value to a typed position of the
    embedding; every name the module binds is read at its own kind. *)
Definition load_level (name : string) : result AclLevel.t :=
  g ← load_global name;
  match g with GLevel l => Ok l | _ => Raise TypeError end.

Definition load_role (name : string) : result AclRole.t :=
  g ← load_global name;
  match g with GRole r => Ok r | _ => Raise TypeError end.

Definition load_response (name : string) : result AclResponse.t :=
  g ← load_global name;
  match g with GResponse r => Ok r | _ => Raise TypeError end.

(** A local variable is unbound until its first assignment. *)
Definition load_local {A} (name : string) (v : option A) : result A :=
  match v with
  | Some a => Ok a
  | None => Raise (UnboundLocalError name)
  end.

(** ** [list.sort] *)

Section list_sort.
Context {A : Type} `{PyLt A}.

(** A stable insertion of [x], which stood before the items of [l]. *)
Fixpoint insert_sorted (x : A) (l : list A) : result (list A) :=
  match l with
  | [] => Ok [x]
  | y :: l' =>
      b ← dunder_lt y x;
      if (b : bool) then r ← insert_sorted x l'; Ok (y :: r)
      else Ok (x :: y :: l')
  end.

Fixpoint sort_ascending (l : list A) : result (list A) :=
  match l with
  | [] => Ok []
  | x :: l' => s ← sort_ascending l'; insert_sorted x s
  end.

(** [l.sort(reverse=...)]: a stable sort that compares with [<] only; a
    list of fewer than two items is left as it is without any comparison,
    and an exception raised by a comparison propagates.  With
    [reverse=True] the list is reversed, sorted and reversed again.  The
    result is the new content of the list: the call itself evaluates to
    [None].  The order in which CPython compares the pairs of a list of
    three items or more is not followed: the embedding gives the sorted
    list when no comparison raises and the exception when all comparisons
    raise the same one, and is used for nothing else. *)
Definition list_sort (reverse : bool) (l : list A) : result (list A) :=
  if reverse then s ← sort_ascending (rev l); Ok (rev s)
  else sort_ascending l.

(** [l[i]] *)
Definition list_getitem (l : list A) (i : nat) : result A :=
  match l !! i with
  | Some a => Ok a
  | None => Raise IndexError
  end.

End list_sort.

(** [None[i]]: [None] is not subscriptable. *)
Definition none_getitem {A} (i : nat) : result A := Raise TypeError.

(** ** Access lists *)

Module AccessList.

Record t : Type :=
  mk { id : Z; name : string; description : string; public : bool }.

(** The state of the membership table is passed to every method that
    queries it.  [self.membership_set] is the reverse side of the
    [access_list] foreign key. *)
Definition membership_set (db : list AccessListMembership.t) (self : t)
    : list AccessListMembership.t :=
  filter (λ m, AccessListMembership.access_list m = id self) db.

Definition is_DoesNotExist (e : exn) : bool :=
  match e with DoesNotExist => true | _ => false end.

(** Checks the role of a BaseEntity. *)
Definition check_entity_role (db : list AccessListMembership.t) (self : t)
    (entity : object) : result AclRole.t :=
  try_except
    (entity_id ← getattr entity "id";
     membership ← AccessListMembership.get (membership_set db self) entity_id;
     AclRole.__init__ (AccessListMembership.role membership))
    is_DoesNotExist
    (load_role "none_role").

(** The locals of [check_membership] whose binding state matters: the
    list under construction, and [partial_entity], which one branch reads
    without having assigned it. *)
Record frame : Type :=
  { roles : list AclResponse.t; partial_entity : option object }.

Definition append (fr : frame) (r : AclResponse.t) : frame :=
  {| roles := roles fr ++ [r]; partial_entity := partial_entity fr |}.

Definition assign_partial_entity (fr : frame) (o : object) : frame :=
  {| roles := roles fr; partial_entity := Some o |}.

(** One of the four blocks [if hasattr(entity, attr) and entity.attr: ...],
    which differ in the attribute and in the name of the level they
    read. *)
Definition affiliation (db : list AccessListMembership.t) (self : t)
    (entity : object) (attr level_name : string) (fr : frame)
    : result frame :=
  c ← (if hasattr entity attr then v ← getattr entity attr; Ok (truthy v)
       else Ok false);
  if (c : bool) then
    v ← getattr entity attr;
    let fr := assign_partial_entity fr (BaseEntity v) in
    p ← load_local "partial_entity" (partial_entity fr);
    entity_role ← check_entity_role db self p;
    lvl ← load_level level_name;
    r ← AclResponse.__init__ lvl entity_role;
    Ok (append fr r)
  else Ok fr.

Section settings.
(** [acl.app_settings.ACL_USER_CHECK_ID_FIELD] *)
Variable ACL_USER_CHECK_ID_FIELD : string.

(** The statements of [check_membership] that follow [roles = [...]], on
    a list seeded with [r0]. *)
Definition check_membership_from (db : list AccessListMembership.t)
    (self : t) (entity : object) (r0 : AclResponse.t)
    : result AclResponse.t :=
  let fr := {| roles := [r0]; partial_entity := None |} in
  u ← isinstance_or_issubclass_User entity;
  fr ← (if (u : bool) then
          (* parial_entity = BaseEntity(id=getattr(entity, ...)) binds the
             local [parial_entity], which is never read *)
          _ ← getattr entity ACL_USER_CHECK_ID_FIELD;
          lvl ← load_level "character_level";
          p ← load_local "partial_entity" (partial_entity fr);
          role ← check_entity_role db self p;
          r ← AclResponse.__init__ lvl role;
          Ok (append fr r)
        else
          lvl ← load_level "character_level";
          role ← check_entity_role db self entity;
          r ← AclResponse.__init__ lvl role;
          Ok (append fr r));
  fr ← affiliation db self entity "character_id" "character_level" fr;
  fr ← affiliation db self entity "corporation_id" "corporation_level" fr;
  fr ← affiliation db self entity "alliance_id" "alliance_level" fr;
  fr ← affiliation db self entity "faction_id" "faction_level" fr;
  fr ← (if public self then
          (* public access defaults to member *)
          lvl ← load_level "public_level";
          role ← load_role "member_role";
          r ← AclResponse.__init__ lvl role;
          Ok (append fr r)
        else Ok fr);
  (* return roles.sort(reverse=True)[0] *)
  _ ← list_sort true (roles fr);
  none_getitem 0.

(** Determines role of a given entity, taking into account role
    definitions for parent affiliations. *)
Definition check_membership (db : list AccessListMembership.t) (self : t)
    (entity : object) : result AclResponse.t :=
  (* User = get_user_model(); roles = [none_response] *)
  r0 ← load_response "none_response";
  check_membership_from db self entity r0.

End settings.

(** A membership row of [self] for the entity whose id is [v]. *)
Definition matches (self : t) (v : value) (m : AccessListMembership.t)
    : Prop :=
  VInt (AccessListMembership.entity m) = v
  ∧ AccessListMembership.access_list m = id self.

#[global] Instance matches_dec self v m : Decision (matches self v m).
Proof. unfold matches. apply _. Defined.

End AccessList.

(** ** Profiles *)

Module AclProfileMixin.

(** [can_access]: the access lists attached to the profile, as
    [self.can_access.all()] returns them. *)
Record t : Type := mk { can_access : list AccessList.t }.

Section settings.
Variable ACL_USER_CHECK_ID_FIELD : string.

(** Determines the overall access of a given entity. *)
Definition check_access (db : list AccessListMembership.t) (self : t)
    (entity : object) : result bool :=
  access_list ←
    mapM (λ x, AccessList.check_membership ACL_USER_CHECK_ID_FIELD db x entity)
         (can_access self);
  e ← load_response "empty_response";
  let access_list := access_list ++ [e] in
  access_list ← list_sort true access_list;
  r ← list_getitem access_list 0;
  py_bool r.

End settings.

End AclProfileMixin.

(** ** The comparator as the specification words it *)

(** Section 4.2 of the specification: [a < b] when the role of [b] is
    granting and the role of [a] is not, otherwise the tuples of ranks
    are compared.  This second definition follows the specification and
    is only compared with [AclResponse.__lt__]. *)
Definition spec_isGranting (r : AclResponse.t) : result bool := py_bool r.

Definition spec_lt (a b : AclResponse.t) : result bool :=
  gb ← spec_isGranting b;
  ga ← spec_isGranting a;
  if gb && negb ga then Ok true else AclResponse.tuple_lt a b.

(** ** Scenarios *)

(** A subject with a direct Member membership and a Corp-level Admin
    membership on the same list. *)
Module ScenarioA.

Definition acl := AccessList.mk 1 "fleet" "Fleet command" false.

Definition db :=
  [ AccessListMembership.mk 1001 1 MEMBER;
    AccessListMembership.mk 2001 1 ADMIN ].

Definition subject : object :=
  {| is_user := false;
     attrs := list_to_map [("id", VInt 1001); ("corporation_id", VInt 2001)] |}.

End ScenarioA.

(** A subject whose only membership on a public list is a Corp-level
    Blocked one, and a profile that holds only that list. *)
Module ScenarioB.

Definition acl := AccessList.mk 2 "market" "Market hub" true.

Definition db := [ AccessListMembership.mk 2001 2 BLOCKED ].

Definition subject : object :=
  {| is_user := false;
     attrs := list_to_map [("id", VInt 1001); ("corporation_id", VInt 2001)] |}.

Definition profile := AclProfileMixin.mk [acl].

End ScenarioB.

(** * Properties *)

(** ** The result monad and the builtins *)

Lemma getitem_Some {V} (d : gmap string V) (k : string) (v : V) :
  d !! k = Some v → getitem d k = Ok v.
Proof. intros E. unfold getitem. by rewrite E. Qed.

Lemma getitem_None {V} (d : gmap string V) (k : string) :
  d !! k = None → getitem d k = Raise (KeyError k).
Proof. intros E. unfold getitem. by rewrite E. Qed.

Example int_corp_level : py_int corp_level = Ok 4.
Proof. reflexivity. Qed.

Example bool_blocked_role : py_bool blocked_role = Ok false.
Proof. reflexivity. Qed.

Example bool_admin_role : py_bool admin_role = Ok true.
Proof. reflexivity. Qed.

Example bool_empty_response : py_bool empty_response = Ok false.
Proof. reflexivity. Qed.

(** [int()] has nothing to call on a response. *)
Lemma response_int_TypeError (r : AclResponse.t) : py_int r = Raise TypeError.
Proof. reflexivity. Qed.

(** The first thing [AclResponse.__lt__] evaluates is [int(other)]. *)
Lemma response_lt_TypeError (a b : AclResponse.t) :
  AclResponse.__lt__ a b = Raise TypeError.
Proof. unfold AclResponse.__lt__. by rewrite response_int_TypeError. Qed.

(** ** Sorting *)

Section sort_facts.
Context {A : Type} `{PyLt A}.

Lemma insert_sorted_raises (e : exn) (x : A) (l : list A) :
  (∀ a b, dunder_lt a b = Raise e) → l ≠ [] → insert_sorted x l = Raise e.
Proof.
  intros Hlt Hl. destruct l as [|y l']; [done|].
  simpl. by rewrite Hlt.
Qed.

Lemma insert_sorted_length (x : A) (l s : list A) :
  insert_sorted x l = Ok s → length s = S (length l).
Proof.
  revert s. induction l as [|y l IH]; intros s; simpl.
  - by intros [= <-].
  - destruct (dunder_lt y x) as [[]|]; simpl; try done.
    + destruct (insert_sorted x l) as [r|]; simpl; [|done].
      intros [= <-]. simpl. f_equal. by apply IH.
    + by intros [= <-].
Qed.

Lemma sort_ascending_length (l s : list A) :
  sort_ascending l = Ok s → length s = length l.
Proof.
  revert s. induction l as [|x l IH]; intros s; simpl.
  - by intros [= <-].
  - destruct (sort_ascending l) as [s'|e] eqn:E; simpl; [|done].
    intros Hins. apply insert_sorted_length in Hins.
    rewrite Hins. f_equal. by apply IH.
Qed.

(** Fewer than two items: no comparison, the list stays as it is. *)
Lemma sort_ascending_short (l : list A) :
  (length l < 2)%nat → sort_ascending l = Ok l.
Proof.
  destruct l as [|x [|y l]]; simpl; intros; try done; lia.
Qed.

(** Two items or more: at least one comparison is made, so a comparator
    that always raises makes the sort raise. *)
Lemma sort_ascending_raises (e : exn) (l : list A) :
  (∀ a b, dunder_lt a b = Raise e) → (2 ≤ length l)%nat →
  sort_ascending l = Raise e.
Proof.
  intros Hlt. induction l as [|x l IH]; simpl; [lia|]. intros Hlen.
  destruct (sort_ascending l) as [s|e'] eqn:E; simpl.
  - apply insert_sorted_raises; [done|].
    apply sort_ascending_length in E. destruct s; simpl in *; [lia|done].
  - destruct (decide (2 ≤ length l)%nat) as [Hl|Hl].
    + by apply IH.
    + rewrite sort_ascending_short in E by lia. done.
Qed.

Lemma list_sort_short (reverse : bool) (l : list A) :
  (length l < 2)%nat → list_sort reverse l = Ok l.
Proof.
  intros Hl. unfold list_sort. destruct reverse.
  - rewrite sort_ascending_short; [|by rewrite length_rev].
    simpl. by rewrite rev_involutive.
  - by apply sort_ascending_short.
Qed.

Lemma list_sort_raises (e : exn) (reverse : bool) (l : list A) :
  (∀ a b, dunder_lt a b = Raise e) → (2 ≤ length l)%nat →
  list_sort reverse l = Raise e.
Proof.
  intros Hlt Hl. unfold list_sort. destruct reverse.
  - rewrite (sort_ascending_raises e); [done|done|by rewrite length_rev].
  - by apply sort_ascending_raises.
Qed.

End sort_facts.

(** Sorting levels works: their [__lt__] compares ranks. *)
Example sort_levels :
  list_sort true [corp_level; character_level; none_level; public_level]
  = Ok [character_level; corp_level; public_level; none_level].
Proof. reflexivity. Qed.

(** Sorting two responses or more raises. *)
Lemma sort_responses_raises (reverse : bool) (l : list AclResponse.t) :
  (2 ≤ length l)%nat → list_sort reverse l = Raise TypeError.
Proof. apply list_sort_raises. exact response_lt_TypeError. Qed.

(** ** Names the resolver reads and the module does not bind *)

Lemma none_response_unbound :
  load_response "none_response" = Raise (NameError "none_response").
Proof. reflexivity. Qed.

Lemma corporation_level_unbound :
  load_level "corporation_level" = Raise (NameError "corporation_level").
Proof. reflexivity. Qed.

(** ** Membership lookup *)

Section membership_lookup.
Variable db : list AccessListMembership.t.
Variable self : AccessList.t.
Variable v : value.

Lemma get_membership_set :
  AccessListMembership.get (AccessList.membership_set db self) v =
  match filter (AccessList.matches self v) db with
  | [] => Raise DoesNotExist
  | [m] => Ok m
  | _ => Raise MultipleObjectsReturned
  end.
Proof.
  unfold AccessListMembership.get, AccessList.membership_set.
  by rewrite list_filter_filter.
Qed.

End membership_lookup.

Lemma filter_matches_none (db : list AccessListMembership.t)
    (self : AccessList.t) (v : value) :
  (∀ m, m ∈ db → ¬ AccessList.matches self v m) →
  filter (AccessList.matches self v) db = [].
Proof.
  induction db as [|x db IH]; intros Hno; [done|].
  rewrite filter_cons_False.
  - apply IH. intros m Hm. apply Hno. by right.
  - apply Hno. by left.
Qed.

Lemma filter_matches_unique (db : list AccessListMembership.t)
    (self : AccessList.t) (v : value) (m : AccessListMembership.t) :
  AccessListMembership.unique_together db → m ∈ db →
  AccessList.matches self v m →
  filter (AccessList.matches self v) db = [m].
Proof.
  unfold AccessListMembership.unique_together.
  induction db as [|x db IH]; intros Hnd Hin Hm.
  - by apply elem_of_nil in Hin.
  - rewrite fmap_cons in Hnd. apply NoDup_cons in Hnd as [Hx Hnd].
    assert (∀ y, y ∈ db → AccessList.matches self v x →
                 ¬ AccessList.matches self v y) as Hother.
    { intros y Hy [Hxe Hxl] [Hye Hyl]. apply Hx.
      apply list_elem_of_fmap. exists y. split; [|done].
      f_equal; congruence. }
    apply elem_of_cons in Hin as [->|Hin].
    + rewrite filter_cons_True by done. f_equal.
      apply filter_matches_none. intros y Hy. by apply Hother.
    + rewrite filter_cons_False; [by apply IH|].
      intros Hxm. by apply (Hother m).
Qed.

(** C8: for an access list [self] and a subject whose id is [v], under the
    uniqueness constraint of the membership table, [check_entity_role]
    returns the role stored in the membership row of that pair when there
    is one, and [none_role] when there is none; a missing row raises
    nothing. *)
Theorem check_entity_role_lookup (db : list AccessListMembership.t)
    (self : AccessList.t) (subject : object) (v : value) :
  AccessListMembership.unique_together db →
  getattr subject "id" = Ok v →
  (∀ m, m ∈ db → AccessList.matches self v m →
     AccessList.check_entity_role db self subject
     = Ok (AclRole.mk (AccessListMembership.role m)))
  ∧ ((∀ m, m ∈ db → ¬ AccessList.matches self v m) →
     AccessList.check_entity_role db self subject = Ok none_role).
Proof.
  intros Hu Hid. unfold AccessList.check_entity_role. rewrite Hid. simpl.
  rewrite get_membership_set. split.
  - intros m Hm Hmatch. by rewrite (filter_matches_unique db self v m).
  - intros Hno. by rewrite filter_matches_none.
Qed.

Lemma check_entity_role_lookup_witness :
  AccessListMembership.unique_together ScenarioA.db
  ∧ AccessList.check_entity_role ScenarioA.db ScenarioA.acl ScenarioA.subject
    = Ok member_role
  ∧ AccessList.check_entity_role ScenarioA.db ScenarioA.acl
      (BaseEntity (VInt 3001))
    = Ok none_role.
Proof.
  assert (AccessListMembership.unique_together ScenarioA.db) as Hu.
  { refine (bool_decide_unpack _ _). vm_compute. exact I. }
  split; [exact Hu|]. split.
  - refine (proj1 (check_entity_role_lookup ScenarioA.db ScenarioA.acl
               ScenarioA.subject (VInt 1001) Hu eq_refl)
             (AccessListMembership.mk 1001 1 MEMBER) _ _).
    + by left.
    + by split.
  - refine (proj2 (check_entity_role_lookup ScenarioA.db ScenarioA.acl
               (BaseEntity (VInt 3001)) (VInt 3001) Hu eq_refl) _).
    intros m Hm [Hv _]. simpl in Hm.
    apply elem_of_cons in Hm as [->|Hm]; [discriminate Hv|].
    apply elem_of_cons in Hm as [->|Hm]; [discriminate Hv|].
    by apply elem_of_nil in Hm.
Defined.

(** ** Ordered enumerations *)

(** C9, as the code has it: the constructors of [AclLevel] and [AclRole]
    accept a name that is in neither map. *)
Lemma construction_accepts_unknown_name :
  AclLevel.LEVEL_MAP !! "Bogus" = None
  ∧ AclLevel.__init__ "Bogus" = Ok (AclLevel.mk "Bogus")
  ∧ AclRole.ROLE_MAP !! "Bogus" = None
  ∧ AclRole.__init__ "Bogus" = Ok (AclRole.mk "Bogus").
Proof. repeat split; reflexivity. Qed.

(** C9, amended: constructing a Level or a Role from a name outside its
    enumeration succeeds and stores the name; the error is a [KeyError]
    on that name, raised later by every operation that converts the value
    to its rank: [int()] and [bool()] of the value, [==] and [<] with the
    value on the left of any operand (the left operand is converted
    first), and [==] and [<] with the value on the right of a Level or a
    Role that has a rank. *)
Theorem unknown_name_fails_at_rank (lname rname : string) :
  AclLevel.LEVEL_MAP !! lname = None →
  AclRole.ROLE_MAP !! rname = None →
  (∃ l, AclLevel.__init__ lname = Ok l
        ∧ py_int l = Raise (KeyError lname)
        ∧ py_bool l = Raise (KeyError lname)
        ∧ (∀ (B : Type) (HB : PyInt B) (o : B),
             AclLevel.__eq__ l o = Raise (KeyError lname)
             ∧ AclLevel.__lt__ l o = Raise (KeyError lname))
        ∧ (∀ (x : AclLevel.t) (n : Z), py_int x = Ok n →
             AclLevel.__eq__ x l = Raise (KeyError lname)
             ∧ AclLevel.__lt__ x l = Raise (KeyError lname))
        ∧ (∀ (y : AclRole.t) (n : Z), py_int y = Ok n →
             AclRole.__eq__ y l = Raise (KeyError lname)
             ∧ AclRole.__lt__ y l = Raise (KeyError lname)))
  ∧ (∃ r, AclRole.__init__ rname = Ok r
        ∧ py_int r = Raise (KeyError rname)
        ∧ py_bool r = Raise (KeyError rname)
        ∧ (∀ (B : Type) (HB : PyInt B) (o : B),
             AclRole.__eq__ r o = Raise (KeyError rname)
             ∧ AclRole.__lt__ r o = Raise (KeyError rname))
        ∧ (∀ (x : AclLevel.t) (n : Z), py_int x = Ok n →
             AclLevel.__eq__ x r = Raise (KeyError rname)
             ∧ AclLevel.__lt__ x r = Raise (KeyError rname))
        ∧ (∀ (y : AclRole.t) (n : Z), py_int y = Ok n →
             AclRole.__eq__ y r = Raise (KeyError rname)
             ∧ AclRole.__lt__ y r = Raise (KeyError rname))).
Proof.
  intros Hl Hr. split.
  - exists (AclLevel.mk lname).
    assert (py_int (AclLevel.mk lname) = Raise (KeyError lname)) as Hint
      by (by apply getitem_None).
    split; [done|]. split; [done|]. split; [|split; [|split]].
    + unfold py_bool, dunder_bool, AclLevel.py_bool_inst, AclLevel.__bool__.
      change (AclLevel.__int__ (AclLevel.mk lname))
        with (py_int (AclLevel.mk lname)).
      by rewrite Hint.
    + intros B HB o. unfold AclLevel.__eq__, AclLevel.__lt__.
      by rewrite Hint.
    + intros x n Hx. unfold AclLevel.__eq__, AclLevel.__lt__.
      by rewrite Hx, Hint.
    + intros y n Hy. unfold AclRole.__eq__, AclRole.__lt__.
      by rewrite Hy, Hint.
  - exists (AclRole.mk rname).
    assert (py_int (AclRole.mk rname) = Raise (KeyError rname)) as Hint
      by (by apply getitem_None).
    split; [done|]. split; [done|]. split; [|split; [|split]].
    + unfold py_bool, dunder_bool, AclRole.py_bool_inst, AclRole.__bool__.
      change (AclRole.__int__ (AclRole.mk rname))
        with (py_int (AclRole.mk rname)).
      by rewrite Hint.
    + intros B HB o. unfold AclRole.__eq__, AclRole.__lt__.
      by rewrite Hint.
    + intros x n Hx. unfold AclLevel.__eq__, AclLevel.__lt__.
      by rewrite Hx, Hint.
    + intros y n Hy. unfold AclRole.__eq__, AclRole.__lt__.
      by rewrite Hy, Hint.
Qed.

Lemma unknown_name_fails_at_rank_witness :
  AclLevel.LEVEL_MAP !! "Bogus" = None
  ∧ AclRole.ROLE_MAP !! "Character" = None
  ∧ (∃ l, AclLevel.__init__ "Bogus" = Ok l
          ∧ py_int l = Raise (KeyError "Bogus")
          ∧ AclLevel.__eq__ l (AclLevel.mk "Other")
            = Raise (KeyError "Bogus")
          ∧ AclLevel.__lt__ corp_level l = Raise (KeyError "Bogus"))
  ∧ (∃ r, AclRole.__init__ "Character" = Ok r
          ∧ py_int r = Raise (KeyError "Character")
          ∧ AclRole.__eq__ r empty_response = Raise (KeyError "Character")
          ∧ AclRole.__eq__ blocked_role r = Raise (KeyError "Character")).
Proof.
  split; [reflexivity|]. split; [reflexivity|].
  destruct (unknown_name_fails_at_rank "Bogus" "Character" eq_refl eq_refl)
    as [[l (Hl1 & Hl2 & _ & Hl3 & Hl4 & _)]
        [r (Hr1 & Hr2 & _ & Hr3 & _ & Hr4)]].
  split; [exists l | exists r].
  - split; [assumption|]. split; [assumption|]. split.
    + apply (Hl3 _ _ (AclLevel.mk "Other")).
    + apply (Hl4 corp_level 4). reflexivity.
  - split; [assumption|]. split; [assumption|]. split.
    + apply (Hr3 _ _ empty_response).
    + apply (Hr4 blocked_role 4). reflexivity.
Defined.

(** C10: on a Level [l] and a Role [r] with ranks [nl] and [nr], [==] and
    [<] against any object [o] that converts to the integer [no] are the
    comparisons of the ranks; hence a second instance built from the name
    of [l] is equal to [l], and the Corp level equals the Blocked role,
    both of rank 4. *)
Theorem comparison_by_rank {B : Type} `{PyInt B} (l : AclLevel.t)
    (r : AclRole.t) (o : B) (nl nr no : Z) :
  py_int l = Ok nl → py_int r = Ok nr → py_int o = Ok no →
  AclLevel.__eq__ l o = Ok (nl =? no)
  ∧ AclLevel.__lt__ l o = Ok (nl <? no)
  ∧ AclRole.__eq__ r o = Ok (nr =? no)
  ∧ AclRole.__lt__ r o = Ok (nr <? no)
  ∧ (∀ l', AclLevel.__init__ (AclLevel.level l) = Ok l' →
           AclLevel.__eq__ l l' = Ok true ∧ AclLevel.__eq__ l' l = Ok true)
  ∧ AclLevel.__eq__ corp_level blocked_role = Ok true
  ∧ AclRole.__eq__ blocked_role corp_level = Ok true.
Proof.
  intros Hl Hr Ho.
  unfold AclLevel.__eq__, AclLevel.__lt__, AclRole.__eq__, AclRole.__lt__.
  rewrite Hl, Hr, Ho. simpl.
  do 4 (split; [reflexivity|]). split; [|split; reflexivity].
  intros l' [= <-]. destruct l as [name]. simpl. rewrite Hl. simpl.
  by rewrite Z.eqb_refl.
Qed.

Lemma comparison_by_rank_witness :
  py_int corp_level = Ok 4 ∧ py_int blocked_role = Ok 4
  ∧ AclLevel.__eq__ corp_level blocked_role = Ok (4 =? 4)
  ∧ AclLevel.__lt__ corp_level blocked_role = Ok (4 <? 4)
  ∧ AclRole.__eq__ blocked_role blocked_role = Ok (4 =? 4).
Proof.
  split; [reflexivity|]. split; [reflexivity|].
  destruct (comparison_by_rank corp_level blocked_role blocked_role 4 4 4)
    as (H1 & H2 & H3 & _); [reflexivity..|].
  auto.
Defined.

(** ** The comparator of responses *)

(** C4: whatever the two responses, [a < b] raises [TypeError]: the
    comparison starts with [int(other)], and a response has no
    [__int__].  No pair reaches the rule on granting roles or the
    comparison of the tuples. *)
Theorem response_lt_raises (a b : AclResponse.t) :
  AclResponse.__lt__ a b = Raise TypeError.
Proof. apply response_lt_TypeError. Qed.

(** Where the specification's comparator puts the floor below a granting
    response, the code raises. *)
Lemma spec_lt_floor_rule :
  spec_lt empty_response (AclResponse.mk character_level member_role)
  = Ok true.
Proof. reflexivity. Qed.

(** C5: for the floor and the (Character, Member) response none of
    [a < b], [a == b], [b < a] holds: the two comparisons raise and the
    equality is false. *)
Theorem response_trichotomy_fails :
  let a := empty_response in
  let b := AclResponse.mk character_level member_role in
  AclResponse.__lt__ a b = Raise TypeError
  ∧ AclResponse.__eq__ a b = Ok false
  ∧ AclResponse.__lt__ b a = Raise TypeError.
Proof. repeat split; reflexivity. Qed.

(** The comparator as the specification words it orders (Character,
    Blocked) and (Public, Member) both ways: the first is below the
    second by the rule on granting roles, the second below the first by
    the tuples. *)
Lemma spec_lt_not_asymmetric :
  let a := AclResponse.mk character_level blocked_role in
  let b := AclResponse.mk public_level member_role in
  spec_lt a b = Ok true ∧ spec_lt b a = Ok true.
Proof. split; reflexivity. Qed.

(** ** Per-list resolution *)

(** Binding the seed would not be enough: whatever the list is seeded
    with, the statements that follow raise.  A subject that is not a user
    instance reaches [issubclass], which rejects an instance; a user
    instance reaches the read of [partial_entity], a local that only the
    later blocks assign. *)
Lemma check_membership_from_raises (F : string)
    (db : list AccessListMembership.t) (L : AccessList.t) (E : object)
    (r0 : AclResponse.t) :
  ∃ e, AccessList.check_membership_from F db L E r0 = Raise e.
Proof.
  unfold AccessList.check_membership_from, isinstance_or_issubclass_User.
  destruct (is_user E); simpl; [|by eexists].
  destruct (getattr E F) as [v|e]; simpl; by eexists.
Qed.

Example check_membership_from_user :
  AccessList.check_membership_from "character_id" ScenarioA.db ScenarioA.acl
    {| is_user := true; attrs := {[ "character_id" := VInt 1001 ]} |}
    empty_response
  = Raise (UnboundLocalError "partial_entity").
Proof. reflexivity. Qed.

(** C1: [check_membership] returns no response: for every setting, table,
    access list and subject its first statement reads the global
    [none_response], which the module does not bind, and the call raises
    [NameError]. *)
Theorem check_membership_raises_NameError (F : string)
    (db : list AccessListMembership.t) (L : AccessList.t) (E : object) :
  AccessList.check_membership F db L E = Raise (NameError "none_response").
Proof. reflexivity. Qed.

(** C6: the list of candidates is seeded from the name [none_response];
    the module binds the floor as [empty_response] and binds no
    [none_response], so the list is not built and [check_membership]
    raises. *)
Theorem floor_candidate_unbound (F : string)
    (db : list AccessListMembership.t) (L : AccessList.t) (E : object) :
  module_globals !! "none_response" = None
  ∧ load_response "empty_response" = Ok empty_response
  ∧ AccessList.check_membership F db L E
    = Raise (NameError "none_response").
Proof. repeat split; reflexivity. Qed.

(** C2: in scenario A the table gives the subject the role Member and its
    corporation the role Admin on the list, and [check_membership] raises
    [NameError] instead of returning (Character, Member). *)
Theorem scenario_A_check_membership (F : string) :
  AccessList.check_entity_role ScenarioA.db ScenarioA.acl ScenarioA.subject
    = Ok member_role
  ∧ AccessList.check_entity_role ScenarioA.db ScenarioA.acl
      (BaseEntity (VInt 2001))
    = Ok admin_role
  ∧ AccessList.check_membership F ScenarioA.db ScenarioA.acl ScenarioA.subject
    = Raise (NameError "none_response").
Proof. repeat split; reflexivity. Qed.

(** C3: in scenario B the table gives the subject no role and its
    corporation the role Blocked on the public list; [check_membership]
    raises [NameError] instead of returning (Corp, Blocked), and
    [check_access] on the profile that holds only that list raises the
    same error instead of returning [False]. *)
Theorem scenario_B_check_access (F : string) :
  AccessList.check_entity_role ScenarioB.db ScenarioB.acl ScenarioB.subject
    = Ok none_role
  ∧ AccessList.check_entity_role ScenarioB.db ScenarioB.acl
      (BaseEntity (VInt 2001))
    = Ok blocked_role
  ∧ AccessList.check_membership F ScenarioB.db ScenarioB.acl ScenarioB.subject
    = Raise (NameError "none_response")
  ∧ AclProfileMixin.check_access F ScenarioB.db ScenarioB.profile
      ScenarioB.subject
    = Raise (NameError "none_response").
Proof. repeat split; reflexivity. Qed.

(** ** Profile aggregation *)

(** C7: on a profile with no access list, [check_access] returns [False]:
    the list to sort holds the floor alone, sorting one item compares
    nothing, and the floor is not granting. *)
Theorem check_access_no_lists (F : string) (db : list AccessListMembership.t)
    (E : object) :
  AclProfileMixin.check_access F db (AclProfileMixin.mk []) E = Ok false.
Proof. reflexivity. Qed.

(** ** More on the ordered enumerations *)

(** Case analysis on membership in a list written out. *)
Ltac elem_cases H :=
  repeat (apply elem_of_cons in H as [H|H]);
  [..|by apply elem_of_nil in H].

Lemma level_int_inv (l : AclLevel.t) (n : Z) :
  py_int l = Ok n →
  (AclLevel.level l, n) ∈
    [ (CHARACTER_LEVEL, 5); (CORP_LEVEL, 4); (ALLIANCE_LEVEL, 3);
      (FACTION_LEVEL, 2); (PUBLIC_LEVEL, 1); (NONE, 0) ].
Proof.
  unfold py_int, dunder_int, AclLevel.py_int_inst, AclLevel.__int__, getitem.
  destruct (AclLevel.LEVEL_MAP !! AclLevel.level l) as [m|] eqn:E; [|done].
  intros [= <-]. by apply elem_of_list_to_map_2 in E.
Qed.

Lemma role_int_inv (r : AclRole.t) (n : Z) :
  py_int r = Ok n →
  (AclRole.role r, n) ∈
    [ (BLOCKED, 4); (ADMIN, 3); (MANAGER, 2); (MEMBER, 1); (NONE, 0) ].
Proof.
  unfold py_int, dunder_int, AclRole.py_int_inst, AclRole.__int__, getitem.
  destruct (AclRole.ROLE_MAP !! AclRole.role r) as [m|] eqn:E; [|done].
  intros [= <-]. by apply elem_of_list_to_map_2 in E.
Qed.

Lemma level_eq_by_rank {B} `{PyInt B} (l : AclLevel.t) (o : B) (n m : Z) :
  py_int l = Ok n → py_int o = Ok m → AclLevel.__eq__ l o = Ok (n =? m).
Proof. intros Hl Ho. unfold AclLevel.__eq__. by rewrite Hl, Ho. Qed.

Lemma level_lt_by_rank {B} `{PyInt B} (l : AclLevel.t) (o : B) (n m : Z) :
  py_int l = Ok n → py_int o = Ok m → AclLevel.__lt__ l o = Ok (n <? m).
Proof. intros Hl Ho. unfold AclLevel.__lt__. by rewrite Hl, Ho. Qed.

Lemma role_eq_by_rank {B} `{PyInt B} (r : AclRole.t) (o : B) (n m : Z) :
  py_int r = Ok n → py_int o = Ok m → AclRole.__eq__ r o = Ok (n =? m).
Proof. intros Hl Ho. unfold AclRole.__eq__. by rewrite Hl, Ho. Qed.

Lemma role_lt_by_rank {B} `{PyInt B} (r : AclRole.t) (o : B) (n m : Z) :
  py_int r = Ok n → py_int o = Ok m → AclRole.__lt__ r o = Ok (n <? m).
Proof. intros Hl Ho. unfold AclRole.__lt__. by rewrite Hl, Ho. Qed.

Lemma level_rank_inj (a b : AclLevel.t) (n : Z) :
  py_int a = Ok n → py_int b = Ok n → a = b.
Proof.
  intros Ha Hb. apply level_int_inv in Ha, Hb.
  destruct a as [x], b as [y]. simpl in *.
  elem_cases Ha; elem_cases Hb; congruence.
Qed.

Lemma role_rank_inj (a b : AclRole.t) (n : Z) :
  py_int a = Ok n → py_int b = Ok n → a = b.
Proof.
  intros Ha Hb. apply role_int_inv in Ha, Hb.
  destruct a as [x], b as [y]. simpl in *.
  elem_cases Ha; elem_cases Hb; congruence.
Qed.

Lemma level_rank_range (l : AclLevel.t) (n : Z) : py_int l = Ok n → 0 ≤ n ≤ 5.
Proof.
  intros Hl. apply level_int_inv in Hl. elem_cases Hl; injection Hl as _ ->; lia.
Qed.

Lemma role_rank_range (r : AclRole.t) (n : Z) : py_int r = Ok n → 0 ≤ n ≤ 4.
Proof.
  intros Hr. apply role_int_inv in Hr. elem_cases Hr; injection Hr as _ ->; lia.
Qed.

(** X1: the rank of a Level lies in 0..5, two Levels of one rank have the
    same name, and [==] on two Levels with ranks is true exactly when the
    names are the same. *)
Theorem level_rank_bounded_injective (a b : AclLevel.t) (n m : Z) :
  py_int a = Ok n → py_int b = Ok m →
  0 ≤ n ≤ 5
  ∧ (n = m ↔ a = b)
  ∧ (AclLevel.__eq__ a b = Ok true ↔ a = b).
Proof.
  intros Ha Hb.
  assert (n = m ↔ a = b) as Hinj.
  { split.
    - intros ->. by apply (level_rank_inj a b m).
    - intros ->. congruence. }
  split; [|split; [done|]].
  - by apply (level_rank_range a).
  - rewrite (level_eq_by_rank a b n m) by done. rewrite <- Hinj.
    split.
    + intros [= E]. by apply Z.eqb_eq.
    + intros ->. by rewrite Z.eqb_refl.
Qed.

Lemma level_rank_bounded_injective_witness :
  0 ≤ 4 ≤ 5 ∧ (AclLevel.__eq__ corp_level character_level = Ok true
               ↔ corp_level = character_level).
Proof.
  destruct (level_rank_bounded_injective corp_level character_level 4 5)
    as (Hb & _ & He); [reflexivity..|].
  split; assumption.
Defined.

(** X2: the rank of a Role lies in 0..4, two Roles of one rank have the
    same name, and [==] on two Roles with ranks is true exactly when the
    names are the same. *)
Theorem role_rank_bounded_injective (a b : AclRole.t) (n m : Z) :
  py_int a = Ok n → py_int b = Ok m →
  0 ≤ n ≤ 4
  ∧ (n = m ↔ a = b)
  ∧ (AclRole.__eq__ a b = Ok true ↔ a = b).
Proof.
  intros Ha Hb.
  assert (n = m ↔ a = b) as Hinj.
  { split.
    - intros ->. by apply (role_rank_inj a b m).
    - intros ->. congruence. }
  split; [|split; [done|]].
  - by apply (role_rank_range a).
  - rewrite (role_eq_by_rank a b n m) by done. rewrite <- Hinj.
    split.
    + intros [= E]. by apply Z.eqb_eq.
    + intros ->. by rewrite Z.eqb_refl.
Qed.

Lemma role_rank_bounded_injective_witness :
  0 ≤ 4 ≤ 4 ∧ (AclRole.__eq__ blocked_role admin_role = Ok true
               ↔ blocked_role = admin_role).
Proof.
  destruct (role_rank_bounded_injective blocked_role admin_role 4 3)
    as (Hb & _ & He); [reflexivity..|].
  split; assumption.
Defined.

(** ** Truth values *)

Lemma role_bool_by_rank (r : AclRole.t) :
  py_bool r =
  match AclRole.ROLE_MAP !! AclRole.role r with
  | Some n => Ok (negb (n =? 0) && negb (n =? 4))
  | None => Raise (KeyError (AclRole.role r))
  end.
Proof.
  unfold py_bool, dunder_bool, AclRole.py_bool_inst, AclRole.__bool__.
  change (getitem AclRole.ROLE_MAP BLOCKED) with (Ok 4 : result Z).
  unfold AclRole.__int__, getitem.
  destruct (AclRole.ROLE_MAP !! AclRole.role r) as [n|]; [|done].
  simpl. unfold bool_of_int. by destruct (n =? 0).
Qed.

Lemma role_lookup_inv (name : string) (n : Z) :
  AclRole.ROLE_MAP !! name = Some n →
  (name, n) ∈
    [ (BLOCKED, 4); (ADMIN, 3); (MANAGER, 2); (MEMBER, 1); (NONE, 0) ].
Proof. apply elem_of_list_to_map_2. Qed.

Lemma level_lookup_inv (name : string) (n : Z) :
  AclLevel.LEVEL_MAP !! name = Some n →
  (name, n) ∈
    [ (CHARACTER_LEVEL, 5); (CORP_LEVEL, 4); (ALLIANCE_LEVEL, 3);
      (FACTION_LEVEL, 2); (PUBLIC_LEVEL, 1); (NONE, 0) ].
Proof. apply elem_of_list_to_map_2. Qed.

(** X3: a Role is true exactly when its name is Member, Manager or Admin,
    and false exactly when it is None or Blocked; for any other name
    [bool()] raises. *)
Theorem role_truth_value (r : AclRole.t) :
  (py_bool r = Ok true ↔ AclRole.role r ∈ [MEMBER; MANAGER; ADMIN])
  ∧ (py_bool r = Ok false ↔ AclRole.role r ∈ [NONE; BLOCKED])
  ∧ (py_bool r = Raise (KeyError (AclRole.role r))
     ↔ AclRole.ROLE_MAP !! AclRole.role r = None).
Proof.
  rewrite role_bool_by_rank. destruct r as [x]. simpl.
  destruct (AclRole.ROLE_MAP !! x) as [n|] eqn:E.
  - apply role_lookup_inv in E.
    elem_cases E; injection E as -> ->; simpl;
      (split; [|split]); split; intros Hx;
      first [ done | by elem_cases Hx
            | apply (bool_decide_unpack _); by vm_compute ].
  - (split; [|split]); split; intros Hx; try done;
      elem_cases Hx; subst x; by vm_compute in E.
Qed.

(** X4: a Level is false exactly when its name is None and true exactly
    for the five other names of the map; any other name raises. *)
Theorem level_truth_value (l : AclLevel.t) :
  (py_bool l = Ok true
   ↔ AclLevel.level l ∈
       [CHARACTER_LEVEL; CORP_LEVEL; ALLIANCE_LEVEL; FACTION_LEVEL;
        PUBLIC_LEVEL])
  ∧ (py_bool l = Ok false ↔ AclLevel.level l = NONE)
  ∧ (py_bool l = Raise (KeyError (AclLevel.level l))
     ↔ AclLevel.LEVEL_MAP !! AclLevel.level l = None).
Proof.
  unfold py_bool, dunder_bool, AclLevel.py_bool_inst, AclLevel.__bool__,
    AclLevel.__int__, getitem.
  destruct l as [x]. simpl.
  destruct (AclLevel.LEVEL_MAP !! x) as [n|] eqn:E.
  - apply level_lookup_inv in E.
    elem_cases E; injection E as -> ->; simpl;
      (split; [|split]); split; intros Hx;
      first [ done | by elem_cases Hx
            | apply (bool_decide_unpack _); by vm_compute ].
  - (split; [|split]); split; intros Hx; try done.
    + elem_cases Hx; subst x; by vm_compute in E.
    + subst x; by vm_compute in E.
Qed.

(** X5: a response is true exactly when the name of its role is Member,
    Manager or Admin, whatever its level is, a name outside the map of
    levels included; it is false exactly for the roles None and
    Blocked. *)
Theorem response_truth_value (a : AclResponse.t) :
  (py_bool a = Ok true
   ↔ AclRole.role (AclResponse.role a) ∈ [MEMBER; MANAGER; ADMIN])
  ∧ (py_bool a = Ok false
     ↔ AclRole.role (AclResponse.role a) ∈ [NONE; BLOCKED]).
Proof.
  change (py_bool a) with (py_bool (AclResponse.role a)).
  split; apply role_truth_value.
Qed.

(** ** The comparisons derived by [total_ordering] *)

Section derived.
Context {B : Type} `{PyInt B}.
Variables (l : AclLevel.t) (r : AclRole.t) (o : B) (nl nr no : Z).
Hypothesis Hl : py_int l = Ok nl.
Hypothesis Hr : py_int r = Ok nr.
Hypothesis Ho : py_int o = Ok no.

Lemma level_gt_by_rank : AclLevel.__gt__ l o = Ok (no <? nl).
Proof.
  unfold AclLevel.__gt__.
  rewrite (level_lt_by_rank l o nl no), (level_eq_by_rank l o nl no) by done.
  simpl. destruct (Z.ltb_spec nl no), (Z.eqb_spec nl no), (Z.ltb_spec no nl);
    simpl; try done; lia.
Qed.

Lemma level_le_by_rank : AclLevel.__le__ l o = Ok (nl <=? no).
Proof.
  unfold AclLevel.__le__.
  rewrite (level_lt_by_rank l o nl no), (level_eq_by_rank l o nl no) by done.
  simpl. destruct (Z.ltb_spec nl no), (Z.eqb_spec nl no), (Z.leb_spec nl no);
    simpl; try done; lia.
Qed.

Lemma level_ge_by_rank : AclLevel.__ge__ l o = Ok (no <=? nl).
Proof.
  unfold AclLevel.__ge__.
  rewrite (level_lt_by_rank l o nl no) by done.
  simpl. destruct (Z.ltb_spec nl no), (Z.leb_spec no nl);
    simpl; try done; lia.
Qed.

Lemma role_gt_by_rank : AclRole.__gt__ r o = Ok (no <? nr).
Proof.
  unfold AclRole.__gt__.
  rewrite (role_lt_by_rank r o nr no), (role_eq_by_rank r o nr no) by done.
  simpl. destruct (Z.ltb_spec nr no), (Z.eqb_spec nr no), (Z.ltb_spec no nr);
    simpl; try done; lia.
Qed.

Lemma role_le_by_rank : AclRole.__le__ r o = Ok (nr <=? no).
Proof.
  unfold AclRole.__le__.
  rewrite (role_lt_by_rank r o nr no), (role_eq_by_rank r o nr no) by done.
  simpl. destruct (Z.ltb_spec nr no), (Z.eqb_spec nr no), (Z.leb_spec nr no);
    simpl; try done; lia.
Qed.

Lemma role_ge_by_rank : AclRole.__ge__ r o = Ok (no <=? nr).
Proof.
  unfold AclRole.__ge__.
  rewrite (role_lt_by_rank r o nr no) by done.
  simpl. destruct (Z.ltb_spec nr no), (Z.leb_spec no nr);
    simpl; try done; lia.
Qed.

End derived.

(** X6: on a Level and a Role with ranks, the comparisons [>], [<=] and
    [>=] that [total_ordering] derives are the comparisons of the ranks
    with the rank of the other object. *)
Theorem derived_comparisons_by_rank {B : Type} `{PyInt B} (l : AclLevel.t)
    (r : AclRole.t) (o : B) (nl nr no : Z) :
  py_int l = Ok nl → py_int r = Ok nr → py_int o = Ok no →
  AclLevel.__gt__ l o = Ok (no <? nl)
  ∧ AclLevel.__le__ l o = Ok (nl <=? no)
  ∧ AclLevel.__ge__ l o = Ok (no <=? nl)
  ∧ AclRole.__gt__ r o = Ok (no <? nr)
  ∧ AclRole.__le__ r o = Ok (nr <=? no)
  ∧ AclRole.__ge__ r o = Ok (no <=? nr).
Proof.
  intros Hl Hr Ho.
  repeat split;
    eauto using level_gt_by_rank, level_le_by_rank, level_ge_by_rank,
      role_gt_by_rank, role_le_by_rank, role_ge_by_rank.
Qed.

Lemma derived_comparisons_by_rank_witness :
  AclLevel.__gt__ character_level corp_level = Ok true
  ∧ AclRole.__le__ admin_role corp_level = Ok true.
Proof.
  destruct (derived_comparisons_by_rank character_level admin_role corp_level
              5 3 4) as (H1 & _ & _ & _ & H2 & _); [reflexivity..|].
  split; assumption.
Defined.

(** X7: on Levels with ranks [<] is a strict total order that agrees with
    [==] and [>]: exactly one of [a < b], [a == b], [a > b] is true, and
    [<] is transitive. *)
Theorem level_lt_strict_total_order (a b c : AclLevel.t) (na nb nc : Z) :
  py_int a = Ok na → py_int b = Ok nb → py_int c = Ok nc →
  ((AclLevel.__lt__ a b = Ok true ∧ AclLevel.__eq__ a b = Ok false
    ∧ AclLevel.__gt__ a b = Ok false)
   ∨ (AclLevel.__lt__ a b = Ok false ∧ AclLevel.__eq__ a b = Ok true
      ∧ AclLevel.__gt__ a b = Ok false)
   ∨ (AclLevel.__lt__ a b = Ok false ∧ AclLevel.__eq__ a b = Ok false
      ∧ AclLevel.__gt__ a b = Ok true))
  ∧ (AclLevel.__lt__ a b = Ok true → AclLevel.__lt__ b c = Ok true →
     AclLevel.__lt__ a c = Ok true)
  ∧ AclLevel.__lt__ a a = Ok false.
Proof.
  intros Ha Hb Hc.
  rewrite (level_lt_by_rank a b na nb), (level_eq_by_rank a b na nb),
    (level_gt_by_rank a b na nb), (level_lt_by_rank b c nb nc),
    (level_lt_by_rank a c na nc), (level_lt_by_rank a a na na) by done.
  destruct (Z.ltb_spec na nb), (Z.eqb_spec na nb), (Z.ltb_spec nb na),
    (Z.ltb_spec nb nc), (Z.ltb_spec na nc), (Z.ltb_spec na na);
    try lia; repeat split; try done; try lia; auto.
Qed.

Lemma level_lt_strict_total_order_witness :
  AclLevel.__lt__ public_level public_level = Ok false.
Proof.
  destruct (level_lt_strict_total_order public_level corp_level
              character_level 1 4 5) as (_ & _ & H); [reflexivity..|].
  exact H.
Defined.

(** X8: on Roles with ranks [<] is a strict total order that agrees with
    [==] and [>]: exactly one of [a < b], [a == b], [a > b] is true, and
    [<] is transitive. *)
Theorem role_lt_strict_total_order (a b c : AclRole.t) (na nb nc : Z) :
  py_int a = Ok na → py_int b = Ok nb → py_int c = Ok nc →
  ((AclRole.__lt__ a b = Ok true ∧ AclRole.__eq__ a b = Ok false
    ∧ AclRole.__gt__ a b = Ok false)
   ∨ (AclRole.__lt__ a b = Ok false ∧ AclRole.__eq__ a b = Ok true
      ∧ AclRole.__gt__ a b = Ok false)
   ∨ (AclRole.__lt__ a b = Ok false ∧ AclRole.__eq__ a b = Ok false
      ∧ AclRole.__gt__ a b = Ok true))
  ∧ (AclRole.__lt__ a b = Ok true → AclRole.__lt__ b c = Ok true →
     AclRole.__lt__ a c = Ok true)
  ∧ AclRole.__lt__ a a = Ok false.
Proof.
  intros Ha Hb Hc.
  rewrite (role_lt_by_rank a b na nb), (role_eq_by_rank a b na nb),
    (role_gt_by_rank a b na nb), (role_lt_by_rank b c nb nc),
    (role_lt_by_rank a c na nc), (role_lt_by_rank a a na na) by done.
  destruct (Z.ltb_spec na nb), (Z.eqb_spec na nb), (Z.ltb_spec nb na),
    (Z.ltb_spec nb nc), (Z.ltb_spec na nc), (Z.ltb_spec na na);
    try lia; repeat split; try done; try lia; auto.
Qed.

Lemma role_lt_strict_total_order_witness :
  AclRole.__lt__ member_role member_role = Ok false.
Proof.
  destruct (role_lt_strict_total_order member_role admin_role blocked_role
              1 3 4) as (_ & _ & H); [reflexivity..|].
  exact H.
Defined.

(** X9: in the order of the ranks Blocked is the greatest Role, although it
    is false, and None the least; Character is the greatest Level and
    None the least. *)
Theorem rank_extremes (l : AclLevel.t) (r : AclRole.t) (nl nr : Z) :
  py_int l = Ok nl → py_int r = Ok nr →
  AclRole.__le__ r blocked_role = Ok true
  ∧ AclRole.__ge__ r none_role = Ok true
  ∧ py_bool blocked_role = Ok false
  ∧ AclLevel.__le__ l character_level = Ok true
  ∧ AclLevel.__ge__ l none_level = Ok true.
Proof.
  intros Hl Hr.
  rewrite (role_le_by_rank r blocked_role nr 4),
    (role_ge_by_rank r none_role nr 0),
    (level_le_by_rank l character_level nl 5),
    (level_ge_by_rank l none_level nl 0) by done.
  pose proof (level_rank_range l nl Hl) as Hbl.
  pose proof (role_rank_range r nr Hr) as Hbr.
  repeat split; try done; f_equal; lia.
Qed.

Lemma rank_extremes_witness :
  AclRole.__le__ admin_role blocked_role = Ok true
  ∧ AclLevel.__ge__ public_level none_level = Ok true.
Proof.
  destruct (rank_extremes public_level admin_role 1 3)
    as (H1 & _ & _ & _ & H2); [reflexivity..|].
  split; assumption.
Defined.

(** ** Equality and order of responses *)

Lemma response_eq_by_rank (a b : AclResponse.t) (la lb ra rb : Z) :
  py_int (AclResponse.level a) = Ok la →
  py_int (AclResponse.level b) = Ok lb →
  py_int (AclResponse.role a) = Ok ra →
  py_int (AclResponse.role b) = Ok rb →
  AclResponse.__eq__ a b = Ok ((la =? lb) && (ra =? rb)).
Proof.
  intros Hla Hlb Hra Hrb. unfold AclResponse.__eq__.
  rewrite (level_eq_by_rank _ _ la lb) by done. simpl.
  destruct (la =? lb); [|done].
  by rewrite (role_eq_by_rank _ _ ra rb).
Qed.

(** X10: on responses whose level and role have ranks, [==] is true exactly
    when the two responses have the same level name and the same role
    name, and false otherwise. *)
Theorem response_eq_same_names (a b : AclResponse.t) (la lb ra rb : Z) :
  py_int (AclResponse.level a) = Ok la →
  py_int (AclResponse.level b) = Ok lb →
  py_int (AclResponse.role a) = Ok ra →
  py_int (AclResponse.role b) = Ok rb →
  (AclResponse.__eq__ a b = Ok true ↔ a = b)
  ∧ (AclResponse.__eq__ a b = Ok false ↔ a ≠ b).
Proof.
  intros Hla Hlb Hra Hrb.
  rewrite (response_eq_by_rank a b la lb ra rb) by done.
  assert (a = b ↔ la = lb ∧ ra = rb) as ->.
  { destruct a as [l1 r1], b as [l2 r2]. simpl in *. split.
    - intros [= -> ->]. split; congruence.
    - intros [-> ->]. f_equal.
      + by apply (level_rank_inj l1 l2 lb).
      + by apply (role_rank_inj r1 r2 rb). }
  destruct (Z.eqb_spec la lb), (Z.eqb_spec ra rb); simpl;
    split; split; try done; intros; try lia; try tauto.
Qed.

Lemma response_eq_same_names_witness :
  AclResponse.__eq__ empty_response (AclResponse.mk corp_level blocked_role)
  = Ok false
  ↔ empty_response ≠ AclResponse.mk corp_level blocked_role.
Proof.
  destruct (response_eq_same_names empty_response
              (AclResponse.mk corp_level blocked_role) 0 4 0 4)
    as [_ H]; [reflexivity..|].
  exact H.
Defined.

(** X11: [==] on responses stops at the levels when their ranks differ: it
    is false without the roles being converted, so that role names
    outside the map raise nothing; when the ranks of the levels are equal
    and the two responses hold roles of different names (two roles of
    different names are two objects, which [==] converts), a name of the
    left role outside the map raises [KeyError]. *)
Theorem response_eq_levels_first (a b : AclResponse.t) (la lb : Z) :
  py_int (AclResponse.level a) = Ok la →
  py_int (AclResponse.level b) = Ok lb →
  (la ≠ lb → AclResponse.__eq__ a b = Ok false)
  ∧ (la = lb →
     AclResponse.role a ≠ AclResponse.role b →
     AclRole.ROLE_MAP !! AclRole.role (AclResponse.role a) = None →
     AclResponse.__eq__ a b
     = Raise (KeyError (AclRole.role (AclResponse.role a)))).
Proof.
  intros Hla Hlb. unfold AclResponse.__eq__.
  rewrite (level_eq_by_rank _ _ la lb) by done. simpl. split.
  - intros Hne. by destruct (Z.eqb_spec la lb).
  - intros -> _ Hnone. rewrite Z.eqb_refl. unfold AclRole.__eq__.
    assert (py_int (AclResponse.role a)
            = Raise (KeyError (AclRole.role (AclResponse.role a)))) as ->
      by (by apply getitem_None).
    done.
Qed.

Lemma response_eq_levels_first_witness :
  AclResponse.__eq__ (AclResponse.mk corp_level (AclRole.mk "Bogus"))
    (AclResponse.mk character_level (AclRole.mk "Bogus")) = Ok false
  ∧ AclResponse.__eq__ (AclResponse.mk corp_level (AclRole.mk "Bogus"))
      (AclResponse.mk corp_level member_role) = Raise (KeyError "Bogus").
Proof.
  split.
  - refine (proj1 (response_eq_levels_first
                     (AclResponse.mk corp_level (AclRole.mk "Bogus"))
                     (AclResponse.mk character_level (AclRole.mk "Bogus"))
                     4 5 eq_refl eq_refl) _).
    lia.
  - refine (proj2 (response_eq_levels_first
                     (AclResponse.mk corp_level (AclRole.mk "Bogus"))
                     (AclResponse.mk corp_level member_role)
                     4 4 eq_refl eq_refl) eq_refl _ eq_refl).
    simpl. discriminate.
Defined.

(** X12: no ordering comparison between two responses returns: [>], [<=]
    and [>=], which [total_ordering] derives from [<], raise [TypeError]
    as [<] does. *)
Theorem response_ordering_raises (a b : AclResponse.t) :
  AclResponse.__gt__ a b = Raise TypeError
  ∧ AclResponse.__le__ a b = Raise TypeError
  ∧ AclResponse.__ge__ a b = Raise TypeError.
Proof.
  unfold AclResponse.__gt__, AclResponse.__le__, AclResponse.__ge__.
  by rewrite response_lt_TypeError.
Qed.

(** ** More on the membership lookup *)

Lemma check_entity_role_by_rows (db : list AccessListMembership.t)
    (self : AccessList.t) (subject : object) (v : value) :
  getattr subject "id" = Ok v →
  AccessList.check_entity_role db self subject =
  match filter (AccessList.matches self v) db with
  | [] => Ok none_role
  | [m] => Ok (AclRole.mk (AccessListMembership.role m))
  | _ => Raise MultipleObjectsReturned
  end.
Proof.
  intros Hid. unfold AccessList.check_entity_role. rewrite Hid. simpl.
  rewrite get_membership_set.
  by destruct (filter (AccessList.matches self v) db) as [|m [|m' l]].
Qed.

(** X13: [check_entity_role] only absorbs the missing row.  A subject
    without an [id] attribute raises [AttributeError], and two rows of the
    list for the same entity, which the table admits when the uniqueness
    constraint is not enforced, raise [MultipleObjectsReturned]. *)
Theorem check_entity_role_errors (db l1 l2 l3 : list AccessListMembership.t)
    (m1 m2 : AccessListMembership.t) (self : AccessList.t)
    (subject : object) (v : value) :
  (attrs subject !! "id" = None →
   AccessList.check_entity_role db self subject
   = Raise (AttributeError "id"))
  ∧ (getattr subject "id" = Ok v →
     AccessList.matches self v m1 → AccessList.matches self v m2 →
     AccessList.check_entity_role (l1 ++ m1 :: l2 ++ m2 :: l3) self subject
     = Raise MultipleObjectsReturned).
Proof.
  split.
  - intros Hid. unfold AccessList.check_entity_role, getattr.
    by rewrite Hid.
  - intros Hid H1 H2. rewrite (check_entity_role_by_rows _ _ _ v) by done.
    rewrite filter_app, filter_cons_True, filter_app, filter_cons_True
      by done.
    destruct (filter (AccessList.matches self v) l1) as [|x [|y f1]];
      destruct (filter (AccessList.matches self v) l2) as [|z f2]; done.
Qed.

Lemma check_entity_role_errors_witness :
  AccessList.check_entity_role ScenarioA.db ScenarioA.acl
    {| is_user := false; attrs := ∅ |}
  = Raise (AttributeError "id")
  ∧ AccessList.check_entity_role
      ([] ++ AccessListMembership.mk 1001 1 MEMBER
          :: [] ++ AccessListMembership.mk 1001 1 ADMIN :: [])
      ScenarioA.acl ScenarioA.subject
    = Raise MultipleObjectsReturned.
Proof.
  split.
  - refine (proj1 (check_entity_role_errors ScenarioA.db [] [] []
                     (AccessListMembership.mk 1001 1 MEMBER)
                     (AccessListMembership.mk 1001 1 ADMIN)
                     ScenarioA.acl {| is_user := false; attrs := ∅ |}
                     VNone) eq_refl).
  - refine (proj2 (check_entity_role_errors [] [] [] []
                     (AccessListMembership.mk 1001 1 MEMBER)
                     (AccessListMembership.mk 1001 1 ADMIN)
                     ScenarioA.acl ScenarioA.subject (VInt 1001))
                  eq_refl _ _); by split.
Defined.

(** X14: the rows of other access lists and of other entities do not
    matter: a row that is not a row of [self] for the subject's id can
    be added to the table or removed from it without changing what
    [check_entity_role] returns or raises. *)
Theorem check_entity_role_other_rows (l1 l2 : list AccessListMembership.t)
    (m : AccessListMembership.t) (self : AccessList.t) (subject : object)
    (v : value) :
  getattr subject "id" = Ok v →
  ¬ AccessList.matches self v m →
  AccessList.check_entity_role (l1 ++ m :: l2) self subject
  = AccessList.check_entity_role (l1 ++ l2) self subject.
Proof.
  intros Hid Hm.
  rewrite !(check_entity_role_by_rows _ _ _ v) by done.
  by rewrite !filter_app, filter_cons_False.
Qed.

Lemma check_entity_role_other_rows_witness :
  AccessList.check_entity_role
    ([AccessListMembership.mk 1001 1 MEMBER]
     ++ AccessListMembership.mk 1001 2 BLOCKED
     :: [AccessListMembership.mk 2001 1 ADMIN])
    ScenarioA.acl ScenarioA.subject
  = AccessList.check_entity_role
      ([AccessListMembership.mk 1001 1 MEMBER]
       ++ [AccessListMembership.mk 2001 1 ADMIN])
      ScenarioA.acl ScenarioA.subject.
Proof.
  apply (check_entity_role_other_rows _ _ _ _ _ (VInt 1001)).
  - reflexivity.
  - intros [_ Hl]. discriminate Hl.
Defined.

Lemma rows_match_perm {A} (l l' : list AccessListMembership.t)
    (a c : A) (f : AccessListMembership.t → A) :
  l ≡ₚ l' →
  match l with [] => a | [m] => f m | _ => c end
  = match l' with [] => a | [m] => f m | _ => c end.
Proof.
  intros Hp. destruct l as [|x [|y l]].
  - apply Permutation_nil_l in Hp. by subst l'.
  - apply Permutation_singleton_l in Hp. by subst l'.
  - apply Permutation_length in Hp.
    by destruct l' as [|x' [|y' l']].
Qed.

(** X15: the order of the rows in the table does not matter:
    [check_entity_role] returns or raises the same on any two tables that
    hold the same rows. *)
Theorem check_entity_role_row_order (db db' : list AccessListMembership.t)
    (self : AccessList.t) (subject : object) :
  db ≡ₚ db' →
  AccessList.check_entity_role db self subject
  = AccessList.check_entity_role db' self subject.
Proof.
  intros Hp. destruct (getattr subject "id") as [v|e] eqn:Hid.
  - rewrite !(check_entity_role_by_rows _ _ _ v) by done.
    apply rows_match_perm. by rewrite Hp.
  - unfold AccessList.check_entity_role. by rewrite Hid.
Qed.

Lemma check_entity_role_row_order_witness :
  AccessList.check_entity_role ScenarioA.db ScenarioA.acl ScenarioA.subject
  = AccessList.check_entity_role (reverse ScenarioA.db) ScenarioA.acl
      ScenarioA.subject.
Proof.
  apply check_entity_role_row_order. symmetry. apply reverse_Permutation.
Defined.

(** X16: on a table that keeps the uniqueness constraint and stores only
    role names of [ROLE_CHOICES], [check_entity_role] returns a Role that
    has a rank, between 0 and 4, and the rank is 0 (the Role is None)
    exactly when the list has no row for the subject's id. *)
Theorem check_entity_role_rank (db : list AccessListMembership.t)
    (self : AccessList.t) (subject : object) (v : value) :
  AccessListMembership.unique_together db →
  AccessListMembership.valid_roles db →
  getattr subject "id" = Ok v →
  ∃ r n, AccessList.check_entity_role db self subject = Ok r
         ∧ py_int r = Ok n ∧ 0 ≤ n ≤ 4
         ∧ (n = 0 ↔ ∀ m, m ∈ db → ¬ AccessList.matches self v m).
Proof.
  intros Hu Hvalid Hid.
  rewrite (check_entity_role_by_rows _ _ _ v) by done.
  destruct (filter (AccessList.matches self v) db) as [|m l] eqn:Hf.
  - exists none_role, 0. repeat split; try done.
    intros _ m Hm Hmatch. by eapply filter_nil_not_elem_of.
  - assert (m ∈ filter (AccessList.matches self v) db) as Hm
      by (rewrite Hf; by left).
    apply list_elem_of_filter in Hm as [Hmatch Hm].
    rewrite (filter_matches_unique db self v m) in Hf by done.
    injection Hf as <-.
    unfold AccessListMembership.valid_roles in Hvalid.
    rewrite Forall_forall in Hvalid. specialize (Hvalid m Hm).
    destruct m as [e a ro]. simpl in *.
    unfold AccessListMembership.ROLE_CHOICES in Hvalid.
    elem_cases Hvalid; subst ro;
      [exists admin_role, 3 | exists manager_role, 2
      | exists member_role, 1 | exists blocked_role, 4];
      (repeat split; try done; try lia);
      intros Hno; exfalso; by apply (Hno _ Hm).
Qed.

Lemma check_entity_role_rank_witness :
  ∃ r n, AccessList.check_entity_role ScenarioA.db ScenarioA.acl
           ScenarioA.subject = Ok r
         ∧ py_int r = Ok n ∧ 0 ≤ n ≤ 4.
Proof.
  destruct (check_entity_role_rank ScenarioA.db ScenarioA.acl
              ScenarioA.subject (VInt 1001)) as (r & n & H1 & H2 & H3 & _).
  - refine (bool_decide_unpack _ _). vm_compute. exact I.
  - refine (bool_decide_unpack _ _). vm_compute. exact I.
  - reflexivity.
  - by exists r, n.
Defined.

(** ** The affiliation blocks *)

(** X17: a block whose attribute the subject does not have, or has with
    the value [None] or 0, changes nothing: no row is looked up, no level
    is read (the name of the level may even be unbound) and the list of
    candidates stays as it is. *)
Theorem affiliation_skips (db : list AccessListMembership.t)
    (self : AccessList.t) (subject : object) (attr lname : string)
    (fr : AccessList.frame) :
  (∀ v, attrs subject !! attr = Some v → truthy v = false) →
  AccessList.affiliation db self subject attr lname fr = Ok fr.
Proof.
  intros Hfalsy. unfold AccessList.affiliation, hasattr, getattr.
  destruct (attrs subject !! attr) as [v|] eqn:E.
  - rewrite bool_decide_eq_true_2 by (by eexists).
    simpl. by rewrite (Hfalsy v).
  - rewrite bool_decide_eq_false_2; [done|].
    intros [v Hv]. discriminate Hv.
Qed.

Lemma affiliation_skips_witness :
  AccessList.affiliation ScenarioA.db ScenarioA.acl
    {| is_user := false;
       attrs := list_to_map [("id", VInt 1001); ("corporation_id", VInt 0)] |}
    "corporation_id" "corporation_level"
    {| AccessList.roles := [empty_response];
       AccessList.partial_entity := None |}
  = Ok {| AccessList.roles := [empty_response];
          AccessList.partial_entity := None |}.
Proof.
  apply affiliation_skips. intros v Hv.
  vm_compute in Hv. by injection Hv as <-.
Defined.

(** X18: a block whose attribute holds a non-zero id either raises or adds
    exactly one candidate at the end of the list: the response made of
    the level the block names and of the role that [check_entity_role]
    gives for that id.  The candidates already in the list are kept. *)
Theorem affiliation_appends (db : list AccessListMembership.t)
    (self : AccessList.t) (subject : object) (attr lname : string)
    (fr fr' : AccessList.frame) (v : value) :
  attrs subject !! attr = Some v → truthy v = true →
  AccessList.affiliation db self subject attr lname fr = Ok fr' →
  ∃ lvl r, load_level lname = Ok lvl
           ∧ AccessList.check_entity_role db self (BaseEntity v) = Ok r
           ∧ AccessList.roles fr'
             = AccessList.roles fr ++ [AclResponse.mk lvl r].
Proof.
  intros Hv Ht. unfold AccessList.affiliation, hasattr, getattr.
  rewrite Hv, bool_decide_eq_true_2 by (by eexists).
  simpl. rewrite Ht. simpl.
  destruct (AccessList.check_entity_role db self (BaseEntity v))
    as [r|e]; simpl; [|done].
  destruct (load_level lname) as [lvl|e]; simpl; [|done].
  intros [= <-]. by exists lvl, r.
Qed.

Lemma affiliation_appends_witness :
  ∃ lvl r, load_level "alliance_level" = Ok lvl
           ∧ AccessList.check_entity_role ScenarioA.db ScenarioA.acl
               (BaseEntity (VInt 2001)) = Ok r
           ∧ [empty_response; AclResponse.mk alliance_level admin_role]
             = [empty_response] ++ [AclResponse.mk lvl r].
Proof.
  refine (affiliation_appends ScenarioA.db ScenarioA.acl
            {| is_user := false;
               attrs := {[ "alliance_id" := VInt 2001 ]} |}
            "alliance_id" "alliance_level"
            {| AccessList.roles := [empty_response];
               AccessList.partial_entity := None |}
            {| AccessList.roles :=
                 [empty_response; AclResponse.mk alliance_level admin_role];
               AccessList.partial_entity := Some (BaseEntity (VInt 2001)) |}
            (VInt 2001) eq_refl eq_refl eq_refl).
Defined.

(** X19: the block of the corporation never adds a candidate for a subject
    that has a corporation: it reads the level under the name
    [corporation_level], which the module does not bind, and raises
    [NameError] once the role of the corporation has been looked up. *)
Theorem corporation_block_raises (db : list AccessListMembership.t)
    (self : AccessList.t) (subject : object) (fr : AccessList.frame)
    (v : value) (r : AclRole.t) :
  attrs subject !! "corporation_id" = Some v → truthy v = true →
  AccessList.check_entity_role db self (BaseEntity v) = Ok r →
  AccessList.affiliation db self subject "corporation_id"
    "corporation_level" fr
  = Raise (NameError "corporation_level").
Proof.
  intros Hv Ht Hr. unfold AccessList.affiliation, hasattr, getattr.
  rewrite Hv, bool_decide_eq_true_2 by (by eexists).
  simpl. rewrite Ht. simpl. by rewrite Hr.
Qed.

Lemma corporation_block_raises_witness :
  AccessList.affiliation ScenarioA.db ScenarioA.acl ScenarioA.subject
    "corporation_id" "corporation_level"
    {| AccessList.roles := [empty_response];
       AccessList.partial_entity := None |}
  = Raise (NameError "corporation_level").
Proof.
  apply (corporation_block_raises _ _ _ _ (VInt 2001) admin_role);
    reflexivity.
Defined.

(** ** What the resolver raises *)

(** X20: the statements of [check_membership] after the seed never return,
    whatever the list is seeded with: a subject that is not an instance of
    the user model raises [TypeError] in [issubclass]; a user without the
    configured id attribute raises [AttributeError]; a user with it raises
    [UnboundLocalError] on [partial_entity]. *)
Theorem check_membership_from_errors (F : string)
    (db : list AccessListMembership.t) (L : AccessList.t) (E : object)
    (r0 : AclResponse.t) :
  AccessList.check_membership_from F db L E r0 =
  if is_user E then
    match attrs E !! F with
    | Some _ => Raise (UnboundLocalError "partial_entity")
    | None => Raise (AttributeError F)
    end
  else Raise TypeError.
Proof.
  unfold AccessList.check_membership_from, isinstance_or_issubclass_User,
    getattr.
  destruct (is_user E); simpl; [|done].
  by destruct (attrs E !! F).
Qed.

(** X21: [check_access] never grants: on a profile without access lists it
    returns [False], and on any other profile it raises the [NameError]
    of [check_membership]. *)
Theorem check_access_never_grants (F : string)
    (db : list AccessListMembership.t) (p : AclProfileMixin.t) (E : object) :
  AclProfileMixin.check_access F db p E =
  match AclProfileMixin.can_access p with
  | [] => Ok false
  | _ :: _ => Raise (NameError "none_response")
  end.
Proof.
  unfold AclProfileMixin.check_access.
  by destruct (AclProfileMixin.can_access p).
Qed.
